(** * Reflection fork script (src/lib/reflection/fork-script.ts)

    A shallow embedding of the child-process entry point [run] and of its two
    local helpers [sendDataToParent] and [sendErrorToParent], followed by the
    properties of the messaging protocol.

    The script is sequential code with two effects: exceptions (a rejected
    [await] is a throw) and mutation of things outside the function (the
    application singleton, the IPC channel).  Both are modelled by a small
    state-and-exception monad whose store holds the application object and
    the list of externally visible events in program order.

    [process.send] serialises its argument with JSON and throws when the
    argument holds a value JSON cannot carry; the data that reaches it (the
    plugin descriptors, the own properties of a thrown error) is therefore
    modelled as JavaScript values, with the test JSON applies to them. *)

From Stdlib Require Import String List Lia.
Import ListNotations.
Open Scope string_scope.

(** ** JavaScript values the script handles *)

(** Plain JavaScript data, as far as JSON tells values apart: a number is
    kept as its literal, a BigInt is the one primitive JSON refuses. *)
#[local] Unset Elimination Schemes.
Inductive Value : Type :=
| VNull
| VBool (b : bool)
| VNumber (literal : string)
| VString (s : string)
| VBigInt (digits : string)
| VArray (items : list Value)
| VObject (fields : list (string * Value)).
#[local] Set Elimination Schemes.

(** Whether [JSON.stringify] returns on a value: it throws a [TypeError] as
    soon as it meets a BigInt, at any depth. *)
Fixpoint carriable (v : Value) : bool :=
  match v with
  | VBigInt _ => false
  | VArray items => forallb carriable items
  | VObject fields => forallb (fun field => carriable (snd field)) fields
  | _ => true
  end.

(** An [Error] instance: the standard properties, and the further own
    enumerable properties the thrower attached (a code, a response, ...). *)
Record Error : Type := mkError {
  name : string;
  message : string;
  stack : string;
  own : list (string * Value)
}.

(** The plain object the [serialize-error] package returns for an [Error]. *)
Record SerializedError : Type := mkSerializedError {
  se_name : string;
  se_message : string;
  se_stack : string;
  se_own : list (string * Value)
}.

(** [serializeError(err)] of the [serialize-error] package, on an [Error]
    instance: the standard properties and every own enumerable property are
    copied into a plain object; primitive values, BigInt included, are
    copied as they are. *)
Definition serializeError (err : Error) : SerializedError :=
  {| se_name := name err;
     se_message := message err;
     se_stack := stack err;
     se_own := own err |}.

(** The serialized error as the object JSON sees. *)
Definition SerializedError_value (se : SerializedError) : Value :=
  VObject (("name", VString (se_name se))
           :: ("message", VString (se_message se))
           :: ("stack", VString (se_stack se))
           :: se_own se).

(** [ReflectionType] of ./stage: the closed set of stage identifiers. *)
Inductive ReflectionType : Type := plugin | typegen.

Definition ReflectionType_text (t : ReflectionType) : string :=
  match t with
  | plugin => "plugin"
  | typegen => "typegen"
  end.

(** The options object handed to [createDevAppRunner]. *)
Record RunnerOptions : Type := { catchUnhandledErrors : bool }.

(** How a statement or an awaited promise completes. *)
Inductive Completion (A : Type) : Type :=
| Normal (a : A)
| Throw (e : Error).
Arguments Normal {A} a.
Arguments Throw {A} e.

(** Truthiness of an environment variable: [undefined] and the empty string
    are falsy. *)
Definition truthy (v : option string) : bool :=
  match v with
  | None => false
  | Some s => negb (String.eqb s "")
  end.

(** String coercion of an environment variable, as [JSON.parse] applies it. *)
Definition env_text (v : option string) : string :=
  match v with
  | None => "undefined"
  | Some s => s
  end.

Section Reflection.

(** Data that is opaque to the script. *)
Context {LayoutData Layout Plugin RuntimePlugin GraphQLSchema SchemaSettings : Type}.

(** The parts of [App.PrivateApp] the script reads:
    [app.private.state.plugins], [app.private.state.schemaComponent.schema]
    and [app.settings.current.schema]. *)
Record PrivateApp : Type := {
  state_plugins : list Plugin;
  schemaComponent_schema : option GraphQLSchema;
  settings_current_schema : SchemaSettings
}.

(** [Message] of ./reflect: what the child may send to the parent. *)
Inductive Message : Type :=
| success_plugin (plugins : list Plugin)
| success_typegen
| error (serializedError : SerializedError).

(** The argument object of [writeArtifacts]. *)
Record WriteArtifactsParams : Type := {
  graphqlSchema : option GraphQLSchema;
  layout : Layout;
  schemaSettings : SchemaSettings;
  plugins : list RuntimePlugin
}.

(** The object [createDevAppRunner] returns.  [start] may mutate the
    application and settles either normally or with an error. *)
Record AppRunner : Type := {
  start : PrivateApp -> PrivateApp * option Error
}.

(** The process the script runs in and the collaborators it imports.  The
    calls the script leaves unguarded and the spec gives no failure for
    ([require], [Layout.createFromData], [createDevAppRunner]) return; every
    awaited promise settles; an IPC channel, when the process has one, stays
    open for the invocation. *)
Record Host : Type := {
  (* process.env.NEXUS_REFLECTION_LAYOUT *)
  NEXUS_REFLECTION_LAYOUT : option string;
  (* the ambient setting that names the active reflection stage *)
  REFLECTION_STAGE : option string;
  (* whether process.send is defined *)
  process_send : bool;
  (* a plugin descriptor as the data JSON sees *)
  Plugin_value : Plugin -> Value;
  (* the stack a new Error captures, given its message *)
  captureStack : string -> string;
  (* require('../../').default *)
  require_default : PrivateApp;
  JSON_parse : string -> Completion LayoutData;
  Layout_createFromData : LayoutData -> Layout;
  createDevAppRunner : Layout -> PrivateApp -> RunnerOptions -> AppRunner;
  Plugin_importAndLoadRuntimePlugins : list Plugin -> Completion (list RuntimePlugin);
  writeArtifacts : WriteArtifactsParams -> option Error
}.

(** What the script does to the outside, in program order. *)
Inductive Event : Type :=
| EvRequire
| EvJSONParse (text : string)
| EvCreateFromData (data : LayoutData)
| EvCreateDevAppRunner (l : Layout) (app : PrivateApp) (opts : RunnerOptions)
| EvStart (outcome : option Error)
| EvIsReflectionStage (t : ReflectionType)
| EvImportAndLoad (ps : list Plugin)
| EvWriteArtifacts (params : WriteArtifactsParams)
| EvSend (m : Message).

(** The store: the application singleton and the events so far. *)
Record Store : Type := {
  app : PrivateApp;
  trace : list Event
}.

Definition Eff (A : Type) : Type := Store -> Completion A * Store.

Definition ret {A} (a : A) : Eff A := fun st => (Normal a, st).

Definition throw {A} (e : Error) : Eff A := fun st => (Throw e, st).

Definition bind {A B} (c : Eff A) (k : A -> Eff B) : Eff B :=
  fun st =>
    match c st with
    | (Normal a, st') => k a st'
    | (Throw e, st') => (Throw e, st')
    end.

(** [try { body } catch (err) { handler }]: the store changes made by the
    body before it threw are kept. *)
Definition try_catch {A} (body : Eff A) (handler : Error -> Eff A) : Eff A :=
  fun st =>
    match body st with
    | (Normal a, st') => (Normal a, st')
    | (Throw e, st') => handler e st'
    end.

Definition emit (ev : Event) : Eff unit :=
  fun st => (Normal tt, {| app := app st; trace := trace st ++ [ev] |}).

Definition read_app : Eff PrivateApp := fun st => (Normal (app st), st).

Definition lift {A} (c : Completion A) : Eff A := fun st => (c, st).

Notation "x <- c1 ;; c2" := (bind c1 (fun x => c2))
  (at level 61, c1 at next level, right associativity).
Notation "c1 ;; c2" := (bind c1 (fun _ => c2))
  (at level 61, right associativity).

(** ** Observations on a trace *)

(** The messages that went over the channel, in order. *)
Fixpoint sent (tr : list Event) : list Message :=
  match tr with
  | [] => []
  | EvSend m :: tr' => m :: sent tr'
  | _ :: tr' => sent tr'
  end.

Definition is_error (m : Message) : bool :=
  match m with error _ => true | _ => false end.

Definition is_success_plugin (m : Message) : bool :=
  match m with success_plugin _ => true | _ => false end.

Definition is_success_typegen (m : Message) : bool :=
  match m with success_typegen => true | _ => false end.

(** How many messages of one kind were sent. *)
Definition count_sent (kind : Message -> bool) (tr : list Event) : nat :=
  length (filter kind (sent tr)).

(** The calls of the runner factory, with their arguments. *)
Fixpoint constructions (tr : list Event)
    : list (Layout * PrivateApp * RunnerOptions) :=
  match tr with
  | [] => []
  | EvCreateDevAppRunner l a o :: tr' => (l, a, o) :: constructions tr'
  | _ :: tr' => constructions tr'
  end.

(** The outcomes of the awaited [start] calls. *)
Fixpoint starts (tr : list Event) : list (option Error) :=
  match tr with
  | [] => []
  | EvStart o :: tr' => o :: starts tr'
  | _ :: tr' => starts tr'
  end.

(** Whether some awaited [start] settled with an error. *)
Definition start_threw (tr : list Event) : bool :=
  existsb (fun o => match o with Some _ => true | None => false end) (starts tr).

(** The stage checks that were evaluated. *)
Fixpoint stage_checks (tr : list Event) : list ReflectionType :=
  match tr with
  | [] => []
  | EvIsReflectionStage t :: tr' => t :: stage_checks tr'
  | _ :: tr' => stage_checks tr'
  end.

(** The plugin lists handed to the plugin loader. *)
Fixpoint loads (tr : list Event) : list (list Plugin) :=
  match tr with
  | [] => []
  | EvImportAndLoad ps :: tr' => ps :: loads tr'
  | _ :: tr' => loads tr'
  end.

(** The argument objects handed to [writeArtifacts]. *)
Fixpoint writes (tr : list Event) : list WriteArtifactsParams :=
  match tr with
  | [] => []
  | EvWriteArtifacts params :: tr' => params :: writes tr'
  | _ :: tr' => writes tr'
  end.

Variable host : Host.

(** [new Error(msg)]. *)
Definition new_Error (msg : string) : Error :=
  {| name := "Error"; message := msg; stack := captureStack host msg;
     own := [] |}.

(** The [TypeError] that [JSON.stringify] throws. *)
Definition new_TypeError (msg : string) : Error :=
  {| name := "TypeError"; message := msg; stack := captureStack host msg;
     own := [] |}.

(** A message as the object handed to [process.send]. *)
Definition Message_value (m : Message) : Value :=
  match m with
  | success_plugin ps =>
      VObject [("type", VString "success-plugin");
               ("data", VObject [("plugins", VArray (map (Plugin_value host) ps))])]
  | success_typegen =>
      VObject [("type", VString "success-typegen")]
  | error se =>
      VObject [("type", VString "error");
               ("data", VObject [("serializedError", SerializedError_value se)])]
  end.

(** Whether JSON can carry a message. *)
Definition JSON_carries (m : Message) : bool := carriable (Message_value m).

(** [process.send(message)] on a defined [process.send]: the message is
    serialised before it is written to the channel, so a message JSON cannot
    carry makes the call throw and nothing is written. *)
Definition process_send_call (message : Message) : Eff unit :=
  if JSON_carries message then
    emit (EvSend message)
  else
    throw (new_TypeError "Do not know how to serialize a BigInt").

(** [require('../../').default]: a reference to the application singleton
    that lives in the store. *)
Definition require_app : Eff PrivateApp :=
  emit EvRequire ;; read_app.

Definition JSON_parse_call (text : string) : Eff LayoutData :=
  emit (EvJSONParse text) ;; lift (JSON_parse host text).

Definition createFromData_call (data : LayoutData) : Eff Layout :=
  emit (EvCreateFromData data) ;; ret (Layout_createFromData host data).

Definition createDevAppRunner_call (l : Layout) (a : PrivateApp)
    (opts : RunnerOptions) : Eff AppRunner :=
  emit (EvCreateDevAppRunner l a opts) ;; ret (createDevAppRunner host l a opts).

(** [await appRunner.start()]. *)
Definition appRunner_start (r : AppRunner) : Eff unit :=
  fun st =>
    let (app', outcome) := start r (app st) in
    let st' := {| app := app'; trace := trace st ++ [EvStart outcome] |} in
    match outcome with
    | None => (Normal tt, st')
    | Some err => (Throw err, st')
    end.

(** Modelled from the spec: [isReflectionStage] of ./stage, a predicate over
    ambient process-level configuration that returns whether the currently
    active stage equals the candidate; a stage outside the closed set, or no
    stage, makes every call return false. *)
Definition isReflectionStage (candidate : ReflectionType) : bool :=
  match REFLECTION_STAGE host with
  | None => false
  | Some s => String.eqb s (ReflectionType_text candidate)
  end.

Definition isReflectionStage_call (candidate : ReflectionType) : Eff bool :=
  emit (EvIsReflectionStage candidate) ;; ret (isReflectionStage candidate).

Definition importAndLoadRuntimePlugins_call (ps : list Plugin)
    : Eff (list RuntimePlugin) :=
  emit (EvImportAndLoad ps) ;; lift (Plugin_importAndLoadRuntimePlugins host ps).

(** [await writeArtifacts(params)]. *)
Definition writeArtifacts_call (params : WriteArtifactsParams) : Eff unit :=
  emit (EvWriteArtifacts params) ;;
  match writeArtifacts host params with
  | None => ret tt
  | Some err => throw err
  end.

(** ** The script *)

Definition sendDataToParent (message : Message) : Eff unit :=
  if negb (process_send host) then
    throw (new_Error
      "process.send is undefined, could not send the plugins back to the main process")
  else
    process_send_call message.

Definition sendErrorToParent (err : Error) : Eff unit :=
  sendDataToParent (error (serializeError err)).

Definition run : Eff unit :=
  if negb (truthy (NEXUS_REFLECTION_LAYOUT host)) then
    throw (new_Error "process.env.NEXUS_REFLECTION_LAYOUT is required")
  else
    a <- require_app ;;
    data <- JSON_parse_call (env_text (NEXUS_REFLECTION_LAYOUT host)) ;;
    l <- createFromData_call data ;;
    appRunner <- createDevAppRunner_call l a {| catchUnhandledErrors := false |} ;;
    try_catch (appRunner_start appRunner) (fun err => sendErrorToParent err) ;;
    isPlugin <- isReflectionStage_call plugin ;;
    if isPlugin then
      a1 <- read_app ;;
      sendDataToParent (success_plugin (state_plugins a1))
    else
      isTypegen <- isReflectionStage_call typegen ;;
      if isTypegen then
        try_catch
          (a2 <- read_app ;;
           loaded <- importAndLoadRuntimePlugins_call (state_plugins a2) ;;
           writeArtifacts_call
             {| graphqlSchema := schemaComponent_schema a2;
                layout := l;
                schemaSettings := settings_current_schema a2;
                plugins := loaded |} ;;
           sendDataToParent success_typegen)
          (fun err => sendErrorToParent err)
      else
        ret tt.

(** The store the process starts with: the application as the module system
    will hand it out, and nothing done yet. *)
Definition boot : Store := {| app := require_default host; trace := [] |}.

(** One invocation of the script. *)
Definition invocation : Completion unit * Store := run boot.

(** The runner the script builds once the layout data has been parsed. *)
Definition script_runner (data : LayoutData) : AppRunner :=
  createDevAppRunner host (Layout_createFromData host data) (require_default host)
    {| catchUnhandledErrors := false |}.

End Reflection.

Arguments JSON_carries : simpl never.

(** ** A concrete project, used to run the script *)

Module Demo.

Definition app0 : @PrivateApp string string bool :=
  {| state_plugins := [];
     schemaComponent_schema := None;
     settings_current_schema := true |}.

(** The application once its module body and [start] have run: one plugin is
    registered and the schema is assembled. *)
Definition app1 : @PrivateApp string string bool :=
  {| state_plugins := ["nexus-plugin-prisma"];
     schemaComponent_schema := Some "type Query { ok: Boolean }";
     settings_current_schema := true |}.

Definition boom : Error :=
  {| name := "Error"; message := "boom"; stack := "Error: boom\n    at app.ts:3";
     own := [] |}.

Definition disk_full : Error :=
  {| name := "Error"; message := "ENOSPC"; stack := "Error: ENOSPC\n    at typegen.ts:9";
     own := [] |}.

Definition syntax_error : Error :=
  {| name := "SyntaxError"; message := "Unexpected token"; stack := "SyntaxError";
     own := [] |}.

Definition parse (text : string) : Completion string :=
  if String.eqb text "{}" then Normal "layout-data" else Throw syntax_error.

(** A host whose layout variable holds [{}]; the stage, the transport, the
    outcome of [start], of plugin loading and of artifact writing vary. *)
Definition project (stage : option string) (transport : bool)
    (start_outcome : option Error) (load_outcome write_outcome : option Error)
    : @Host string string string string string bool :=
  {| NEXUS_REFLECTION_LAYOUT := Some "{}";
     REFLECTION_STAGE := stage;
     process_send := transport;
     Plugin_value := VString;
     captureStack := fun msg => "Error: " ++ msg;
     require_default := app0;
     JSON_parse := parse;
     Layout_createFromData := fun data => "layout";
     createDevAppRunner := fun _ _ _ => {| start := fun _ => (app1, start_outcome) |};
     Plugin_importAndLoadRuntimePlugins := fun ps =>
       match load_outcome with
       | None => Normal (map (fun p => "loaded:" ++ p) ps)
       | Some err => Throw err
       end;
     writeArtifacts := fun _ => write_outcome |}.

(** The same project started without the layout variable. *)
Definition no_layout : @Host string string string string string bool :=
  {| NEXUS_REFLECTION_LAYOUT := None;
     REFLECTION_STAGE := Some "plugin";
     process_send := true;
     Plugin_value := VString;
     captureStack := fun msg => "Error: " ++ msg;
     require_default := app0;
     JSON_parse := parse;
     Layout_createFromData := fun data => "layout";
     createDevAppRunner := fun _ _ _ => {| start := fun _ => (app1, None) |};
     Plugin_importAndLoadRuntimePlugins := fun ps => Normal ps;
     writeArtifacts := fun _ => None |}.

(** Scenarios. *)
Definition plugin_ok := project (Some "plugin") true None None None.
Definition plugin_no_transport := project (Some "plugin") false None None None.
Definition plugin_start_fails := project (Some "plugin") true (Some boom) None None.
Definition plugin_start_fails_no_transport :=
  project (Some "plugin") false (Some boom) None None.
Definition typegen_ok := project (Some "typegen") true None None None.
Definition typegen_no_transport := project (Some "typegen") false None None None.
Definition typegen_start_fails := project (Some "typegen") true (Some boom) None None.
Definition typegen_load_fails := project (Some "typegen") true None (Some boom) None.
Definition typegen_write_fails := project (Some "typegen") true None None (Some disk_full).
Definition typegen_write_fails_no_transport :=
  project (Some "typegen") false None None (Some disk_full).
Definition no_stage_ok := project None true None None None.
Definition no_stage_start_fails := project None true (Some boom) None None.
Definition unknown_stage_ok := project (Some "schema") true None None None.


(** A host that differs from [h] in the layout variable only. *)
Definition with_layout (v : option string)
    (h : @Host string string string string string bool)
    : @Host string string string string string bool :=
  {| NEXUS_REFLECTION_LAYOUT := v;
     REFLECTION_STAGE := REFLECTION_STAGE h;
     process_send := process_send h;
     Plugin_value := Plugin_value h;
     captureStack := captureStack h;
     require_default := require_default h;
     JSON_parse := JSON_parse h;
     Layout_createFromData := Layout_createFromData h;
     createDevAppRunner := createDevAppRunner h;
     Plugin_importAndLoadRuntimePlugins := Plugin_importAndLoadRuntimePlugins h;
     writeArtifacts := writeArtifacts h |}.

Definition empty_layout := with_layout (Some "") plugin_ok.
Definition broken_layout := with_layout (Some "{") plugin_ok.
Definition typegen_both_fail :=
  project (Some "typegen") true (Some boom) None (Some disk_full).

(** The application after a [start] that registered a plugin but assembled
    no schema. *)
Definition app_no_schema : @PrivateApp string string bool :=
  {| state_plugins := ["nexus-plugin-prisma"];
     schemaComponent_schema := None;
     settings_current_schema := true |}.

(** Stage [typegen] on a project whose [start] leaves the schema unset. *)
Definition typegen_no_schema : @Host string string string string string bool :=
  {| NEXUS_REFLECTION_LAYOUT := Some "{}";
     REFLECTION_STAGE := Some "typegen";
     process_send := true;
     Plugin_value := VString;
     captureStack := fun msg => "Error: " ++ msg;
     require_default := app0;
     JSON_parse := parse;
     Layout_createFromData := fun data => "layout";
     createDevAppRunner := fun _ _ _ =>
       {| start := fun _ => (app_no_schema, None) |};
     Plugin_importAndLoadRuntimePlugins := fun ps => Normal ps;
     writeArtifacts := fun _ => None |}.


(** A failure that carries a BigInt in an own property. *)
Definition quota_exceeded : Error :=
  {| name := "Error"; message := "quota exceeded";
     stack := "Error: quota exceeded\n    at app.ts:7";
     own := [("limit", VBigInt "9007199254740993")] |}.

Definition plugin_start_fails_bigint :=
  project (Some "plugin") true (Some quota_exceeded) None None.
Definition typegen_write_fails_bigint :=
  project (Some "typegen") true None None (Some quota_exceeded).

(** A host that differs from [h] in what its plugin descriptors hold. *)
Definition with_plugin_value (f : string -> Value)
    (h : @Host string string string string string bool)
    : @Host string string string string string bool :=
  {| NEXUS_REFLECTION_LAYOUT := NEXUS_REFLECTION_LAYOUT h;
     REFLECTION_STAGE := REFLECTION_STAGE h;
     process_send := process_send h;
     Plugin_value := f;
     captureStack := captureStack h;
     require_default := require_default h;
     JSON_parse := JSON_parse h;
     Layout_createFromData := Layout_createFromData h;
     createDevAppRunner := createDevAppRunner h;
     Plugin_importAndLoadRuntimePlugins := Plugin_importAndLoadRuntimePlugins h;
     writeArtifacts := writeArtifacts h |}.

(** A plugin descriptor whose settings hold a BigInt. *)
Definition bigint_settings (plugin_name : string) : Value :=
  VObject [("name", VString plugin_name);
           ("settings", VObject [("limit", VBigInt "1")])].

Definition plugin_bigint := with_plugin_value bigint_settings plugin_ok.

End Demo.

(** ** Properties of the script *)

Section Properties.

Context {LayoutData Layout Plugin RuntimePlugin GraphQLSchema SchemaSettings : Type}.

Variable host :
  @Host LayoutData Layout Plugin RuntimePlugin GraphQLSchema SchemaSettings.

(** Unfolds the script down to matches on what the host supplies. *)
Ltac script :=
  unfold invocation, run, boot, script_runner, require_app, JSON_parse_call,
    createFromData_call, createDevAppRunner_call, appRunner_start,
    isReflectionStage_call, importAndLoadRuntimePlugins_call, writeArtifacts_call,
    sendErrorToParent, sendDataToParent, process_send_call, try_catch, bind,
    emit, read_app, lift, ret, throw in *;
  cbn [app trace fst snd negb] in *.

(** Splits on the next thing the script asks of its host. *)
Ltac ask :=
  match goal with
  | |- context [JSON_carries ?h success_typegen] =>
      change (JSON_carries h success_typegen) with true
  | |- context [truthy ?v] => destruct (truthy v) eqn:?
  | |- context [JSON_parse ?h ?t] => destruct (JSON_parse h t) eqn:?
  | |- context [start ?r ?a] => destruct (start r a) as [? [?|]] eqn:?
  | |- context [process_send ?h] => destruct (process_send h) eqn:?
  | |- context [isReflectionStage ?h ?t] =>
      destruct (isReflectionStage h t) eqn:?
  | |- context [Plugin_importAndLoadRuntimePlugins ?h ?ps] =>
      destruct (Plugin_importAndLoadRuntimePlugins h ps) eqn:?
  | |- context [writeArtifacts ?h ?p] => destruct (writeArtifacts h p) eqn:?
  | |- context [JSON_carries ?h ?m] => destruct (JSON_carries h m) eqn:?
  end; cbn in *.

(** The two stages exclude each other. *)
Lemma typegen_not_plugin :
  isReflectionStage host typegen = true ->
  isReflectionStage host plugin = false.
Proof.
  unfold isReflectionStage.
  destruct (REFLECTION_STAGE host) as [s|]; [|discriminate].
  intros H. apply String.eqb_eq in H. subst s. reflexivity.
Qed.


(** X4: no invocation sends more than two messages. *)
Lemma sent_at_most_two : length (sent (trace (snd (invocation host)))) <= 2.
Proof.
  script. repeat ask; lia.
Qed.

(** C3: without the NEXUS_REFLECTION_LAYOUT variable, [run] throws at once:
    the store is untouched, so no runner was constructed, [start] was not
    called and nothing went over the channel. *)
Theorem missing_layout_is_fatal :
  NEXUS_REFLECTION_LAYOUT host = None ->
  fst (invocation host)
    = Throw (new_Error host "process.env.NEXUS_REFLECTION_LAYOUT is required")
  /\ trace (snd (invocation host)) = []
  /\ constructions (trace (snd (invocation host))) = []
  /\ starts (trace (snd (invocation host))) = []
  /\ sent (trace (snd (invocation host))) = [].
Proof.
  intros H. script. rewrite H. cbn. repeat split; reflexivity.
Qed.

(** X5: an invocation in which no awaited [start] settled with an error
    sends at most one message. *)
Lemma quiet_start_at_most_one :
  start_threw (trace (snd (invocation host))) = false ->
  length (sent (trace (snd (invocation host)))) <= 1.
Proof.
  script. repeat ask; intros H; try discriminate H; lia.
Qed.

(** C4, with a transport that carries the message: under stage [plugin],
    after a start that settles normally, when [process.send] is defined and
    JSON can carry the plugin list, the only message is one [success-plugin]
    carrying the plugins of the application as [start] left it; no [error]
    is sent, [run] returns right after the send and the [typegen] check is
    never evaluated. *)
Theorem plugin_stage_success (data : LayoutData) (a1 : PrivateApp) :
  truthy (NEXUS_REFLECTION_LAYOUT host) = true ->
  JSON_parse host (env_text (NEXUS_REFLECTION_LAYOUT host)) = Normal data ->
  isReflectionStage host plugin = true ->
  start (script_runner host data) (require_default host) = (a1, None) ->
  process_send host = true ->
  JSON_carries host (success_plugin (state_plugins a1)) = true ->
  sent (trace (snd (invocation host))) = [success_plugin (state_plugins a1)]
  /\ count_sent is_success_plugin (trace (snd (invocation host))) = 1
  /\ count_sent is_error (trace (snd (invocation host))) = 0
  /\ stage_checks (trace (snd (invocation host))) = [plugin]
  /\ trace (snd (invocation host))
       = [EvRequire;
          EvJSONParse (env_text (NEXUS_REFLECTION_LAYOUT host));
          EvCreateFromData data;
          EvCreateDevAppRunner (Layout_createFromData host data)
            (require_default host) {| catchUnhandledErrors := false |};
          EvStart None;
          EvIsReflectionStage plugin;
          EvSend (success_plugin (state_plugins a1))]
  /\ fst (invocation host) = Normal tt.
Proof.
  intros Hl Hp Hs Hstart Hsend Hjson. script.
  rewrite Hl. cbn. rewrite Hp. cbn. rewrite Hstart. cbn.
  rewrite Hs. cbn. rewrite Hsend. cbn. rewrite Hjson. cbn.
  repeat split; reflexivity.
Qed.

(** C5, with the transport available: under stage [typegen], after a start
    that settles normally, when plugin loading returns and [writeArtifacts],
    called with the schema and schema settings of the started application,
    the layout and the loaded plugins, settles normally, the only message is
    one [success-typegen], which has no payload. *)
Theorem typegen_stage_success (data : LayoutData) (a1 : PrivateApp)
    (loaded : list RuntimePlugin) :
  truthy (NEXUS_REFLECTION_LAYOUT host) = true ->
  JSON_parse host (env_text (NEXUS_REFLECTION_LAYOUT host)) = Normal data ->
  isReflectionStage host typegen = true ->
  start (script_runner host data) (require_default host) = (a1, None) ->
  Plugin_importAndLoadRuntimePlugins host (state_plugins a1) = Normal loaded ->
  writeArtifacts host
    {| graphqlSchema := schemaComponent_schema a1;
       layout := Layout_createFromData host data;
       schemaSettings := settings_current_schema a1;
       plugins := loaded |} = None ->
  process_send host = true ->
  sent (trace (snd (invocation host))) = [success_typegen]
  /\ count_sent is_success_typegen (trace (snd (invocation host))) = 1
  /\ In (EvWriteArtifacts
           {| graphqlSchema := schemaComponent_schema a1;
              layout := Layout_createFromData host data;
              schemaSettings := settings_current_schema a1;
              plugins := loaded |})
        (trace (snd (invocation host)))
  /\ fst (invocation host) = Normal tt.
Proof.
  intros Hl Hp Hs Hstart Hload Hwrite Hsend.
  pose proof (typegen_not_plugin Hs) as Hn. script.
  rewrite Hl. cbn. rewrite Hp. cbn. rewrite Hstart. cbn.
  rewrite Hn. cbn. rewrite Hs. cbn. rewrite Hload. cbn.
  rewrite Hwrite. cbn. rewrite Hsend. cbn.
  change (JSON_carries host success_typegen) with true. cbn.
  repeat split; try reflexivity.
  do 8 right. left. reflexivity.
Qed.

(** C6, with a transport that carries the message: under stage [typegen],
    after a start that settles normally, when plugin loading throws, or
    artifact writing rejects, with [err], [process.send] is defined and JSON
    can carry the serialized [err], the only message is one [error] whose
    serialized message is the message of [err]; no [success-typegen] is
    sent. *)
Theorem typegen_stage_failure (data : LayoutData) (a1 : PrivateApp)
    (err : Error) :
  truthy (NEXUS_REFLECTION_LAYOUT host) = true ->
  JSON_parse host (env_text (NEXUS_REFLECTION_LAYOUT host)) = Normal data ->
  isReflectionStage host typegen = true ->
  start (script_runner host data) (require_default host) = (a1, None) ->
  (Plugin_importAndLoadRuntimePlugins host (state_plugins a1) = Throw err
   \/ exists loaded,
        Plugin_importAndLoadRuntimePlugins host (state_plugins a1) = Normal loaded
        /\ writeArtifacts host
             {| graphqlSchema := schemaComponent_schema a1;
                layout := Layout_createFromData host data;
                schemaSettings := settings_current_schema a1;
                plugins := loaded |} = Some err) ->
  process_send host = true ->
  JSON_carries host (error (serializeError err)) = true ->
  (exists se,
     sent (trace (snd (invocation host))) = [error se]
     /\ se_message se = message err)
  /\ count_sent is_error (trace (snd (invocation host))) = 1
  /\ count_sent is_success_typegen (trace (snd (invocation host))) = 0.
Proof.
  intros Hl Hp Hs Hstart Hwork Hsend Hjson.
  pose proof (typegen_not_plugin Hs) as Hn. script.
  rewrite Hl. cbn. rewrite Hp. cbn. rewrite Hstart. cbn.
  rewrite Hn. cbn. rewrite Hs. cbn.
  destruct Hwork as [Hload | [loaded [Hload Hwrite]]].
  - rewrite Hload. cbn. rewrite Hsend. cbn. rewrite Hjson. cbn.
    repeat split; try reflexivity.
    exists (serializeError err). split; reflexivity.
  - rewrite Hload. cbn. rewrite Hwrite. cbn. rewrite Hsend. cbn.
    rewrite Hjson. cbn.
    repeat split; try reflexivity.
    exists (serializeError err). split; reflexivity.
Qed.

(** C7, for a start that does not throw: when the active stage is neither
    [plugin] nor [typegen] and no awaited [start] settled with an error,
    nothing is sent. *)
Theorem no_stage_no_message :
  isReflectionStage host plugin = false ->
  isReflectionStage host typegen = false ->
  start_threw (trace (snd (invocation host))) = false ->
  sent (trace (snd (invocation host))) = [].
Proof.
  intros Hp Ht. script.
  repeat ask; intros H; try discriminate H; try reflexivity; congruence.
Qed.


(** C9: when the layout variable is present and parses, the runner factory
    is called exactly once, with the layout built from the parsed value, the
    required application and [catchUnhandledErrors: false]. *)
Theorem runner_constructed_once (data : LayoutData) :
  truthy (NEXUS_REFLECTION_LAYOUT host) = true ->
  JSON_parse host (env_text (NEXUS_REFLECTION_LAYOUT host)) = Normal data ->
  constructions (trace (snd (invocation host)))
    = [(Layout_createFromData host data,
        require_default host,
        {| catchUnhandledErrors := false |})].
Proof.
  intros Hl Hp. script. rewrite Hl. cbn. rewrite Hp. cbn.
  repeat ask; reflexivity.
Qed.

(** C10, with a transport that carries both messages: under stage
    [plugin], when [start] rejects with [err], [process.send] is defined and
    JSON can carry the serialized [err] and the plugin list, two messages
    are sent: the [error] for [err], then a [success-plugin] with the
    plugins of the application as [start] left it. *)
Theorem plugin_stage_after_failed_start (data : LayoutData) (a1 : PrivateApp)
    (err : Error) :
  truthy (NEXUS_REFLECTION_LAYOUT host) = true ->
  JSON_parse host (env_text (NEXUS_REFLECTION_LAYOUT host)) = Normal data ->
  isReflectionStage host plugin = true ->
  start (script_runner host data) (require_default host) = (a1, Some err) ->
  process_send host = true ->
  JSON_carries host (error (serializeError err)) = true ->
  JSON_carries host (success_plugin (state_plugins a1)) = true ->
  sent (trace (snd (invocation host)))
    = [error (serializeError err); success_plugin (state_plugins a1)]
  /\ fst (invocation host) = Normal tt.
Proof.
  intros Hl Hp Hs Hstart Hsend Hjerr Hjps. script.
  rewrite Hl. cbn. rewrite Hp. cbn. rewrite Hstart. cbn.
  rewrite Hsend. cbn. rewrite Hjerr. cbn. rewrite Hs. cbn. rewrite Hjps. cbn.
  split; reflexivity.
Qed.

(** ** Further properties of [run] *)

(** Closes a goal about the members of a short, explicit message list. *)
Ltac members :=
  cbn; intros;
  repeat match goal with
         | H : _ \/ _ |- _ => destruct H
         | H : False |- _ => destruct H
         | H : @eq Message _ ?m |- _ => is_var m; subst m
         | H : @eq Message _ _ |- _ =>
             first [discriminate H | injection H as H; try subst | clear H]
         end.

(** X1: a layout variable that is set but does not parse is fatal too:
    [run] rejects with the error of [JSON.parse]; the application module has
    been required by then, but no runner is constructed, [start] is not
    called and nothing is sent. *)
Theorem unparsable_layout_is_fatal (err : Error) :
  truthy (NEXUS_REFLECTION_LAYOUT host) = true ->
  JSON_parse host (env_text (NEXUS_REFLECTION_LAYOUT host)) = Throw err ->
  fst (invocation host) = Throw err
  /\ trace (snd (invocation host))
       = [EvRequire; EvJSONParse (env_text (NEXUS_REFLECTION_LAYOUT host))]
  /\ constructions (trace (snd (invocation host))) = []
  /\ starts (trace (snd (invocation host))) = []
  /\ sent (trace (snd (invocation host))) = [].
Proof.
  intros Hl Hp. script. rewrite Hl. cbn. rewrite Hp. cbn.
  repeat split; reflexivity.
Qed.

(** X2: the guard tests truthiness, so a layout variable set to the empty
    string is rejected like a missing one, with the same error, before
    [JSON.parse] or anything else is called. *)
Theorem empty_layout_is_fatal :
  NEXUS_REFLECTION_LAYOUT host = Some "" ->
  fst (invocation host)
    = Throw (new_Error host "process.env.NEXUS_REFLECTION_LAYOUT is required")
  /\ trace (snd (invocation host)) = [].
Proof.
  intros H. script. rewrite H. cbn. split; reflexivity.
Qed.

(** X3: when [process.send] is undefined, no invocation sends anything,
    whatever the layout, the stage and the collaborators do. *)
Theorem no_transport_no_message :
  process_send host = false ->
  sent (trace (snd (invocation host))) = [].
Proof.
  intros H. script. rewrite H. cbn. repeat ask; reflexivity.
Qed.

(** X6: an invocation sends at most one success message, of either kind. *)
Theorem at_most_one_success :
  count_sent is_success_plugin (trace (snd (invocation host)))
  + count_sent is_success_typegen (trace (snd (invocation host))) <= 1.
Proof.
  script. repeat ask; cbv; lia.
Qed.

(** X7: a success message is final: every message that is followed by
    another one is an [error]. *)
Theorem success_is_last (m : Message) :
  In m (removelast (sent (trace (snd (invocation host))))) ->
  is_error m = true.
Proof.
  script. repeat ask; members; reflexivity.
Qed.

(** X8: a [success-plugin] message is only sent when the stage is [plugin],
    and its payload is the plugin list of the application as the invocation
    leaves it. *)
Theorem success_plugin_payload (ps : list Plugin) :
  In (success_plugin ps) (sent (trace (snd (invocation host)))) ->
  isReflectionStage host plugin = true
  /\ ps = state_plugins (app (snd (invocation host))).
Proof.
  script. repeat ask; members; split; reflexivity.
Qed.

(** X9: a [success-typegen] message is only sent when the stage is
    [typegen] and [writeArtifacts] was called, once, and settled normally. *)
Theorem success_typegen_after_write :
  In success_typegen (sent (trace (snd (invocation host)))) ->
  isReflectionStage host typegen = true
  /\ exists params,
       writes (trace (snd (invocation host))) = [params]
       /\ writeArtifacts host params = None.
Proof.
  script. repeat ask; members; (split; [reflexivity|]);
    eexists; (split; [reflexivity|]); assumption.
Qed.


(** X11: without a transport a start failure cannot be reported: the
    handler's own send throws, [run] rejects with the [process.send] error
    in place of the start failure, and no stage check is evaluated. *)
Theorem failed_start_masked_without_transport (data : LayoutData)
    (a1 : PrivateApp) (err : Error) :
  truthy (NEXUS_REFLECTION_LAYOUT host) = true ->
  JSON_parse host (env_text (NEXUS_REFLECTION_LAYOUT host)) = Normal data ->
  start (script_runner host data) (require_default host) = (a1, Some err) ->
  process_send host = false ->
  fst (invocation host)
    = Throw (new_Error host
        "process.send is undefined, could not send the plugins back to the main process")
  /\ stage_checks (trace (snd (invocation host))) = []
  /\ sent (trace (snd (invocation host))) = [].
Proof.
  intros Hl Hp Hstart Hsend. script.
  rewrite Hl. cbn. rewrite Hp. cbn. rewrite Hstart. cbn. rewrite Hsend. cbn.
  repeat split; reflexivity.
Qed.

(** X12: when [process.send] is defined and JSON can carry the serialized
    start failure, that failure is reported first under every stage: the
    first message is its [error], and at most one more message follows. *)
Theorem failed_start_error_first (data : LayoutData) (a1 : PrivateApp)
    (err : Error) :
  truthy (NEXUS_REFLECTION_LAYOUT host) = true ->
  JSON_parse host (env_text (NEXUS_REFLECTION_LAYOUT host)) = Normal data ->
  start (script_runner host data) (require_default host) = (a1, Some err) ->
  process_send host = true ->
  JSON_carries host (error (serializeError err)) = true ->
  exists rest,
    sent (trace (snd (invocation host))) = error (serializeError err) :: rest
    /\ length rest <= 1.
Proof.
  intros Hl Hp Hstart Hsend Hjson. script.
  rewrite Hl. cbn. rewrite Hp. cbn. rewrite Hstart. cbn. rewrite Hsend. cbn.
  rewrite Hjson. cbn.
  repeat ask; eexists; (split; [reflexivity | cbn; lia]).
Qed.

(** X13: under stage [typegen], when [process.send] is defined, [start]
    rejects, the stage work then fails as well and JSON can carry both
    serialized failures, two [error] messages are sent: the start failure,
    then the stage failure. *)
Theorem typegen_stage_two_errors (data : LayoutData) (a1 : PrivateApp)
    (err work_err : Error) :
  truthy (NEXUS_REFLECTION_LAYOUT host) = true ->
  JSON_parse host (env_text (NEXUS_REFLECTION_LAYOUT host)) = Normal data ->
  isReflectionStage host typegen = true ->
  start (script_runner host data) (require_default host) = (a1, Some err) ->
  (Plugin_importAndLoadRuntimePlugins host (state_plugins a1) = Throw work_err
   \/ exists loaded,
        Plugin_importAndLoadRuntimePlugins host (state_plugins a1) = Normal loaded
        /\ writeArtifacts host
             {| graphqlSchema := schemaComponent_schema a1;
                layout := Layout_createFromData host data;
                schemaSettings := settings_current_schema a1;
                plugins := loaded |} = Some work_err) ->
  process_send host = true ->
  JSON_carries host (error (serializeError err)) = true ->
  JSON_carries host (error (serializeError work_err)) = true ->
  sent (trace (snd (invocation host)))
    = [error (serializeError err); error (serializeError work_err)].
Proof.
  intros Hl Hp Hs Hstart Hwork Hsend Hjerr Hjwork.
  pose proof (typegen_not_plugin Hs) as Hn. script.
  rewrite Hl. cbn. rewrite Hp. cbn. rewrite Hstart. cbn. rewrite Hsend. cbn.
  rewrite Hjerr. cbn. rewrite Hn. cbn. rewrite Hs. cbn.
  destruct Hwork as [Hload | [loaded [Hload Hwrite]]].
  - rewrite Hload. cbn. rewrite Hjwork. cbn. reflexivity.
  - rewrite Hload. cbn. rewrite Hwrite. cbn. rewrite Hjwork. cbn. reflexivity.
Qed.

(** X14: outside stage [typegen] no plugin is loaded and no artifact is
    written. *)
Theorem no_stage_work_outside_typegen :
  isReflectionStage host typegen = false ->
  loads (trace (snd (invocation host))) = []
  /\ writes (trace (snd (invocation host))) = [].
Proof.
  intros H. script.
  repeat ask; try (split; reflexivity); congruence.
Qed.

(** X15: when the plugin loader never returns normally, [writeArtifacts] is
    never called. *)
Theorem failed_load_skips_write :
  (forall ps loaded,
     Plugin_importAndLoadRuntimePlugins host ps <> Normal loaded) ->
  writes (trace (snd (invocation host))) = [].
Proof.
  intros H. script.
  repeat ask; try reflexivity;
    match goal with
    | E : Plugin_importAndLoadRuntimePlugins _ _ = Normal _ |- _ =>
        destruct (H _ _ E)
    end.
Qed.

(** X17: the stage checks run in a fixed order: [plugin] first, and
    [typegen] only when the [plugin] check was false. *)
Theorem stage_checks_in_order :
  stage_checks (trace (snd (invocation host))) = []
  \/ (stage_checks (trace (snd (invocation host))) = [plugin]
      /\ isReflectionStage host plugin = true)
  \/ (stage_checks (trace (snd (invocation host))) = [plugin; typegen]
      /\ isReflectionStage host plugin = false).
Proof.
  script.
  repeat ask;
    first [ left; reflexivity
          | right; left; split; reflexivity
          | right; right; split; reflexivity ].
Qed.

(** X18: under stage [typegen], after a start that settles normally and a
    plugin load that returns, [writeArtifacts] is called exactly once, with
    the schema field of the started application as it is (set or not), the
    layout, the schema settings and the loaded plugins, whatever the
    transport and the outcome of the call. *)
Theorem typegen_writes_once (data : LayoutData) (a1 : PrivateApp)
    (loaded : list RuntimePlugin) :
  truthy (NEXUS_REFLECTION_LAYOUT host) = true ->
  JSON_parse host (env_text (NEXUS_REFLECTION_LAYOUT host)) = Normal data ->
  isReflectionStage host typegen = true ->
  start (script_runner host data) (require_default host) = (a1, None) ->
  Plugin_importAndLoadRuntimePlugins host (state_plugins a1) = Normal loaded ->
  loads (trace (snd (invocation host))) = [state_plugins a1]
  /\ writes (trace (snd (invocation host)))
       = [{| graphqlSchema := schemaComponent_schema a1;
             layout := Layout_createFromData host data;
             schemaSettings := settings_current_schema a1;
             plugins := loaded |}].
Proof.
  intros Hl Hp Hs Hstart Hload.
  pose proof (typegen_not_plugin Hs) as Hn. script.
  rewrite Hl. cbn. rewrite Hp. cbn. rewrite Hstart. cbn.
  rewrite Hn. cbn. rewrite Hs. cbn. rewrite Hload. cbn.
  repeat ask; split; reflexivity.
Qed.

(** X19: a runner is constructed at most once, always with
    [catchUnhandledErrors: false] and the required application, and [start]
    is awaited exactly once per constructed runner. *)
Theorem one_runner_one_start :
  (constructions (trace (snd (invocation host))) = []
   \/ exists l,
        constructions (trace (snd (invocation host)))
          = [(l, require_default host, {| catchUnhandledErrors := false |})])
  /\ length (starts (trace (snd (invocation host))))
       = length (constructions (trace (snd (invocation host)))).
Proof.
  script.
  repeat ask; (split; [|reflexivity]);
    first [ left; reflexivity | right; eexists; reflexivity ].
Qed.


(** X21: when [start] rejects with a failure JSON cannot carry, although
    [process.send] is defined the handler's send throws: [run] rejects with
    the [TypeError] in place of the start failure, no stage check is
    evaluated and nothing is sent. *)
Theorem unserialisable_start_failure_reject (data : LayoutData)
    (a1 : PrivateApp) (err : Error) :
  truthy (NEXUS_REFLECTION_LAYOUT host) = true ->
  JSON_parse host (env_text (NEXUS_REFLECTION_LAYOUT host)) = Normal data ->
  start (script_runner host data) (require_default host) = (a1, Some err) ->
  process_send host = true ->
  JSON_carries host (error (serializeError err)) = false ->
  fst (invocation host)
    = Throw (new_TypeError host "Do not know how to serialize a BigInt")
  /\ stage_checks (trace (snd (invocation host))) = []
  /\ sent (trace (snd (invocation host))) = [].
Proof.
  intros Hl Hp Hstart Hsend Hjson. script.
  rewrite Hl. cbn. rewrite Hp. cbn. rewrite Hstart. cbn.
  rewrite Hsend. cbn. rewrite Hjson. cbn.
  repeat split; reflexivity.
Qed.

(** X22: under stage [typegen], after a start that settles normally, when
    the stage work fails with a failure JSON cannot carry, although
    [process.send] is defined the handler's send throws: [run] rejects with
    the [TypeError] and nothing is sent. *)
Theorem unserialisable_stage_failure_reject (data : LayoutData)
    (a1 : PrivateApp) (err : Error) :
  truthy (NEXUS_REFLECTION_LAYOUT host) = true ->
  JSON_parse host (env_text (NEXUS_REFLECTION_LAYOUT host)) = Normal data ->
  isReflectionStage host typegen = true ->
  start (script_runner host data) (require_default host) = (a1, None) ->
  (Plugin_importAndLoadRuntimePlugins host (state_plugins a1) = Throw err
   \/ exists loaded,
        Plugin_importAndLoadRuntimePlugins host (state_plugins a1) = Normal loaded
        /\ writeArtifacts host
             {| graphqlSchema := schemaComponent_schema a1;
                layout := Layout_createFromData host data;
                schemaSettings := settings_current_schema a1;
                plugins := loaded |} = Some err) ->
  process_send host = true ->
  JSON_carries host (error (serializeError err)) = false ->
  fst (invocation host)
    = Throw (new_TypeError host "Do not know how to serialize a BigInt")
  /\ sent (trace (snd (invocation host))) = [].
Proof.
  intros Hl Hp Hs Hstart Hwork Hsend Hjson.
  pose proof (typegen_not_plugin Hs) as Hn. script.
  rewrite Hl. cbn. rewrite Hp. cbn. rewrite Hstart. cbn.
  rewrite Hn. cbn. rewrite Hs. cbn.
  destruct Hwork as [Hload | [loaded [Hload Hwrite]]].
  - rewrite Hload. cbn. rewrite Hsend. cbn. rewrite Hjson. cbn.
    split; reflexivity.
  - rewrite Hload. cbn. rewrite Hwrite. cbn. rewrite Hsend. cbn.
    rewrite Hjson. cbn. split; reflexivity.
Qed.

End Properties.

(** ** The script on the concrete project *)

(** C1: under stage [plugin] with a rejecting [start], the [error] message
    is followed by a [success-plugin] message in the same invocation. *)
Theorem failed_start_plugin_stage_also_reports_success :
  starts (trace (snd (invocation Demo.plugin_start_fails))) = [Some Demo.boom]
  /\ sent (trace (snd (invocation Demo.plugin_start_fails)))
       = [error (serializeError Demo.boom);
          success_plugin ["nexus-plugin-prisma"]]
  /\ count_sent is_error (trace (snd (invocation Demo.plugin_start_fails))) = 1
  /\ count_sent is_success_plugin
       (trace (snd (invocation Demo.plugin_start_fails))) = 1.
Proof. repeat split; reflexivity. Qed.

(** C2: under stage [typegen] with a rejecting [start] and stage work that
    succeeds, two messages are sent in one invocation: the [error] of the
    start failure and a [success-typegen]. *)
Theorem failed_start_typegen_stage_sends_twice :
  starts (trace (snd (invocation Demo.typegen_start_fails))) = [Some Demo.boom]
  /\ sent (trace (snd (invocation Demo.typegen_start_fails)))
       = [error (serializeError Demo.boom); success_typegen]
  /\ length (sent (trace (snd (invocation Demo.typegen_start_fails)))) = 2.
Proof. repeat split; reflexivity. Qed.

Lemma missing_layout_is_fatal_witness :
  NEXUS_REFLECTION_LAYOUT Demo.no_layout = None
  /\ fst (invocation Demo.no_layout)
       = Throw (new_Error Demo.no_layout
                  "process.env.NEXUS_REFLECTION_LAYOUT is required")
  /\ sent (trace (snd (invocation Demo.no_layout))) = [].
Proof.
  split; [reflexivity|].
  destruct (missing_layout_is_fatal Demo.no_layout eq_refl)
    as [Hthrow [_ [_ [_ Hsent]]]].
  split; [exact Hthrow | exact Hsent].
Defined.

(** C4 as first stated fails without a transport: the send throws and no
    [success-plugin] message leaves the process. *)
Lemma plugin_stage_silent_without_transport :
  truthy (NEXUS_REFLECTION_LAYOUT Demo.plugin_no_transport) = true
  /\ JSON_parse Demo.plugin_no_transport
       (env_text (NEXUS_REFLECTION_LAYOUT Demo.plugin_no_transport))
       = Normal "layout-data"
  /\ isReflectionStage Demo.plugin_no_transport plugin = true
  /\ start (script_runner Demo.plugin_no_transport "layout-data")
       (require_default Demo.plugin_no_transport) = (Demo.app1, None)
  /\ sent (trace (snd (invocation Demo.plugin_no_transport))) = []
  /\ count_sent is_success_plugin
       (trace (snd (invocation Demo.plugin_no_transport))) <> 1
  /\ process_send Demo.plugin_bigint = true
  /\ isReflectionStage Demo.plugin_bigint plugin = true
  /\ start (script_runner Demo.plugin_bigint "layout-data")
       (require_default Demo.plugin_bigint) = (Demo.app1, None)
  /\ fst (invocation Demo.plugin_bigint)
       = Throw (new_TypeError Demo.plugin_bigint
                  "Do not know how to serialize a BigInt")
  /\ count_sent is_success_plugin
       (trace (snd (invocation Demo.plugin_bigint))) <> 1.
Proof. repeat split; try reflexivity; cbv; discriminate. Qed.

Lemma plugin_stage_success_witness :
  sent (trace (snd (invocation Demo.plugin_ok)))
    = [success_plugin ["nexus-plugin-prisma"]]
  /\ stage_checks (trace (snd (invocation Demo.plugin_ok))) = [plugin].
Proof.
  destruct (plugin_stage_success Demo.plugin_ok "layout-data" Demo.app1
              eq_refl eq_refl eq_refl eq_refl eq_refl eq_refl)
    as [Hsent [_ [_ [Hchecks _]]]].
  split; [exact Hsent | exact Hchecks].
Defined.

(** C5 as first stated fails without a transport: sending [success-typegen]
    throws inside the [try], the handler's send throws as well, and nothing
    leaves the process. *)
Lemma typegen_stage_silent_without_transport :
  truthy (NEXUS_REFLECTION_LAYOUT Demo.typegen_no_transport) = true
  /\ JSON_parse Demo.typegen_no_transport
       (env_text (NEXUS_REFLECTION_LAYOUT Demo.typegen_no_transport))
       = Normal "layout-data"
  /\ isReflectionStage Demo.typegen_no_transport typegen = true
  /\ start (script_runner Demo.typegen_no_transport "layout-data")
       (require_default Demo.typegen_no_transport) = (Demo.app1, None)
  /\ Plugin_importAndLoadRuntimePlugins Demo.typegen_no_transport
       (state_plugins Demo.app1) = Normal ["loaded:nexus-plugin-prisma"]
  /\ writeArtifacts Demo.typegen_no_transport
       {| graphqlSchema := schemaComponent_schema Demo.app1;
          layout := Layout_createFromData Demo.typegen_no_transport "layout-data";
          schemaSettings := settings_current_schema Demo.app1;
          plugins := ["loaded:nexus-plugin-prisma"] |} = None
  /\ sent (trace (snd (invocation Demo.typegen_no_transport))) = []
  /\ count_sent is_success_typegen
       (trace (snd (invocation Demo.typegen_no_transport))) <> 1.
Proof. repeat split; try reflexivity. cbv. discriminate. Qed.

Lemma typegen_stage_success_witness :
  sent (trace (snd (invocation Demo.typegen_ok))) = [success_typegen].
Proof.
  exact (proj1 (typegen_stage_success Demo.typegen_ok "layout-data" Demo.app1
                  ["loaded:nexus-plugin-prisma"]
                  eq_refl eq_refl eq_refl eq_refl eq_refl eq_refl eq_refl)).
Defined.

(** C6 as first stated fails without a transport: the handler's send throws
    and no [error] message leaves the process. *)
Lemma typegen_failure_silent_without_transport :
  truthy (NEXUS_REFLECTION_LAYOUT Demo.typegen_write_fails_no_transport) = true
  /\ isReflectionStage Demo.typegen_write_fails_no_transport typegen = true
  /\ start (script_runner Demo.typegen_write_fails_no_transport "layout-data")
       (require_default Demo.typegen_write_fails_no_transport)
       = (Demo.app1, None)
  /\ writeArtifacts Demo.typegen_write_fails_no_transport
       {| graphqlSchema := schemaComponent_schema Demo.app1;
          layout := Layout_createFromData
                      Demo.typegen_write_fails_no_transport "layout-data";
          schemaSettings := settings_current_schema Demo.app1;
          plugins := ["loaded:nexus-plugin-prisma"] |} = Some Demo.disk_full
  /\ sent (trace (snd (invocation Demo.typegen_write_fails_no_transport))) = []
  /\ count_sent is_error
       (trace (snd (invocation Demo.typegen_write_fails_no_transport))) <> 1
  /\ process_send Demo.typegen_write_fails_bigint = true
  /\ isReflectionStage Demo.typegen_write_fails_bigint typegen = true
  /\ start (script_runner Demo.typegen_write_fails_bigint "layout-data")
       (require_default Demo.typegen_write_fails_bigint) = (Demo.app1, None)
  /\ writeArtifacts Demo.typegen_write_fails_bigint
       {| graphqlSchema := schemaComponent_schema Demo.app1;
          layout := Layout_createFromData
                      Demo.typegen_write_fails_bigint "layout-data";
          schemaSettings := settings_current_schema Demo.app1;
          plugins := ["loaded:nexus-plugin-prisma"] |}
       = Some Demo.quota_exceeded
  /\ fst (invocation Demo.typegen_write_fails_bigint)
       = Throw (new_TypeError Demo.typegen_write_fails_bigint
                  "Do not know how to serialize a BigInt")
  /\ count_sent is_error
       (trace (snd (invocation Demo.typegen_write_fails_bigint))) <> 1.
Proof. repeat split; try reflexivity; cbv; discriminate. Qed.

Lemma typegen_stage_failure_witness :
  (exists se,
     sent (trace (snd (invocation Demo.typegen_load_fails))) = [error se]
     /\ se_message se = "boom")
  /\ (exists se,
        sent (trace (snd (invocation Demo.typegen_write_fails))) = [error se]
        /\ se_message se = "ENOSPC").
Proof.
  split.
  - apply (typegen_stage_failure Demo.typegen_load_fails "layout-data"
             Demo.app1 Demo.boom eq_refl eq_refl eq_refl eq_refl).
    + left. reflexivity.
    + reflexivity.
    + reflexivity.
  - apply (typegen_stage_failure Demo.typegen_write_fails "layout-data"
             Demo.app1 Demo.disk_full eq_refl eq_refl eq_refl eq_refl).
    + right. exists ["loaded:nexus-plugin-prisma"]. split; reflexivity.
    + reflexivity.
    + reflexivity.
Defined.

(** C7 as first stated fails when [start] rejects: with no stage selected,
    the [error] of the start failure is still sent. *)
Lemma no_stage_failed_start_sends_error :
  isReflectionStage Demo.no_stage_start_fails plugin = false
  /\ isReflectionStage Demo.no_stage_start_fails typegen = false
  /\ sent (trace (snd (invocation Demo.no_stage_start_fails)))
       = [error (serializeError Demo.boom)]
  /\ sent (trace (snd (invocation Demo.no_stage_start_fails))) <> [].
Proof. repeat split; try reflexivity. cbv. discriminate. Qed.

Lemma no_stage_no_message_witness :
  sent (trace (snd (invocation Demo.no_stage_ok))) = []
  /\ sent (trace (snd (invocation Demo.unknown_stage_ok))) = [].
Proof.
  split.
  - apply (no_stage_no_message Demo.no_stage_ok); reflexivity.
  - apply (no_stage_no_message Demo.unknown_stage_ok); reflexivity.
Defined.



Lemma runner_constructed_once_witness :
  constructions (trace (snd (invocation Demo.typegen_write_fails)))
    = [("layout", Demo.app0, {| catchUnhandledErrors := false |})].
Proof.
  apply (runner_constructed_once Demo.typegen_write_fails "layout-data");
    reflexivity.
Defined.

(** C10 as first stated fails without a transport: the handler's send throws
    out of [run] and neither message leaves the process. *)
Lemma failed_start_silent_without_transport :
  truthy (NEXUS_REFLECTION_LAYOUT Demo.plugin_start_fails_no_transport) = true
  /\ JSON_parse Demo.plugin_start_fails_no_transport
       (env_text (NEXUS_REFLECTION_LAYOUT Demo.plugin_start_fails_no_transport))
       = Normal "layout-data"
  /\ isReflectionStage Demo.plugin_start_fails_no_transport plugin = true
  /\ start (script_runner Demo.plugin_start_fails_no_transport "layout-data")
       (require_default Demo.plugin_start_fails_no_transport)
       = (Demo.app1, Some Demo.boom)
  /\ sent (trace (snd (invocation Demo.plugin_start_fails_no_transport))) = []
  /\ length (sent (trace (snd (invocation Demo.plugin_start_fails_no_transport))))
       <> 2
  /\ process_send Demo.plugin_start_fails_bigint = true
  /\ isReflectionStage Demo.plugin_start_fails_bigint plugin = true
  /\ start (script_runner Demo.plugin_start_fails_bigint "layout-data")
       (require_default Demo.plugin_start_fails_bigint)
       = (Demo.app1, Some Demo.quota_exceeded)
  /\ fst (invocation Demo.plugin_start_fails_bigint)
       = Throw (new_TypeError Demo.plugin_start_fails_bigint
                  "Do not know how to serialize a BigInt")
  /\ length (sent (trace (snd (invocation Demo.plugin_start_fails_bigint))))
       <> 2.
Proof. repeat split; try reflexivity; cbv; discriminate. Qed.

Lemma plugin_stage_after_failed_start_witness :
  sent (trace (snd (invocation Demo.plugin_start_fails)))
    = [error (serializeError Demo.boom);
       success_plugin ["nexus-plugin-prisma"]].
Proof.
  exact (proj1 (plugin_stage_after_failed_start Demo.plugin_start_fails
                  "layout-data" Demo.app1 Demo.boom
                  eq_refl eq_refl eq_refl eq_refl eq_refl eq_refl eq_refl)).
Defined.

(** ** Further runs on the concrete project *)

Lemma unparsable_layout_is_fatal_witness :
  fst (invocation Demo.broken_layout) = Throw Demo.syntax_error
  /\ sent (trace (snd (invocation Demo.broken_layout))) = [].
Proof.
  destruct (unparsable_layout_is_fatal Demo.broken_layout Demo.syntax_error
              eq_refl eq_refl) as [Hthrow [_ [_ [_ Hsent]]]].
  split; [exact Hthrow | exact Hsent].
Defined.

Lemma empty_layout_is_fatal_witness :
  trace (snd (invocation Demo.empty_layout)) = [].
Proof.
  exact (proj2 (empty_layout_is_fatal Demo.empty_layout eq_refl)).
Defined.

Lemma no_transport_no_message_witness :
  sent (trace (snd (invocation Demo.typegen_write_fails_no_transport))) = [].
Proof.
  apply (no_transport_no_message Demo.typegen_write_fails_no_transport).
  reflexivity.
Defined.

Lemma quiet_start_at_most_one_witness :
  length (sent (trace (snd (invocation Demo.typegen_write_fails)))) <= 1.
Proof.
  apply (quiet_start_at_most_one Demo.typegen_write_fails). reflexivity.
Defined.

Lemma success_is_last_witness :
  In (error (serializeError Demo.boom))
     (removelast (sent (trace (snd (invocation Demo.plugin_start_fails)))))
  /\ is_error (@error string (serializeError Demo.boom)) = true.
Proof.
  assert (H : In (error (serializeError Demo.boom))
                (removelast
                   (sent (trace (snd (invocation Demo.plugin_start_fails))))))
    by (left; reflexivity).
  split; [exact H|].
  exact (success_is_last Demo.plugin_start_fails _ H).
Defined.

Lemma success_plugin_payload_witness :
  isReflectionStage Demo.plugin_ok plugin = true
  /\ ["nexus-plugin-prisma"]
       = state_plugins (app (snd (invocation Demo.plugin_ok))).
Proof.
  apply (success_plugin_payload Demo.plugin_ok ["nexus-plugin-prisma"]).
  left. reflexivity.
Defined.

Lemma success_typegen_after_write_witness :
  isReflectionStage Demo.typegen_ok typegen = true
  /\ exists params,
       writes (trace (snd (invocation Demo.typegen_ok))) = [params]
       /\ writeArtifacts Demo.typegen_ok params = None.
Proof.
  apply (success_typegen_after_write Demo.typegen_ok).
  left. reflexivity.
Defined.


Lemma failed_start_masked_without_transport_witness :
  fst (invocation Demo.plugin_start_fails_no_transport)
    = Throw (new_Error Demo.plugin_start_fails_no_transport
        "process.send is undefined, could not send the plugins back to the main process")
  /\ stage_checks (trace (snd (invocation Demo.plugin_start_fails_no_transport)))
       = [].
Proof.
  destruct (failed_start_masked_without_transport
              Demo.plugin_start_fails_no_transport "layout-data" Demo.app1
              Demo.boom eq_refl eq_refl eq_refl eq_refl)
    as [Hthrow [Hchecks _]].
  split; [exact Hthrow | exact Hchecks].
Defined.

Lemma failed_start_error_first_witness :
  exists rest,
    sent (trace (snd (invocation Demo.typegen_start_fails)))
      = error (serializeError Demo.boom) :: rest
    /\ length rest <= 1.
Proof.
  apply (failed_start_error_first Demo.typegen_start_fails "layout-data"
           Demo.app1 Demo.boom); reflexivity.
Defined.

Lemma typegen_stage_two_errors_witness :
  sent (trace (snd (invocation Demo.typegen_both_fail)))
    = [error (serializeError Demo.boom); error (serializeError Demo.disk_full)].
Proof.
  apply (typegen_stage_two_errors Demo.typegen_both_fail "layout-data"
           Demo.app1 Demo.boom Demo.disk_full eq_refl eq_refl eq_refl eq_refl).
  - right. exists ["loaded:nexus-plugin-prisma"]. split; reflexivity.
  - reflexivity.
  - reflexivity.
  - reflexivity.
Defined.

Lemma no_stage_work_outside_typegen_witness :
  loads (trace (snd (invocation Demo.plugin_ok))) = []
  /\ writes (trace (snd (invocation Demo.plugin_ok))) = [].
Proof.
  apply (no_stage_work_outside_typegen Demo.plugin_ok). reflexivity.
Defined.

Lemma failed_load_skips_write_witness :
  loads (trace (snd (invocation Demo.typegen_load_fails)))
    = [["nexus-plugin-prisma"]]
  /\ writes (trace (snd (invocation Demo.typegen_load_fails))) = [].
Proof.
  split; [reflexivity|].
  apply (failed_load_skips_write Demo.typegen_load_fails).
  intros ps loaded. cbn. discriminate.
Defined.

Lemma typegen_writes_once_witness :
  writes (trace (snd (invocation Demo.typegen_no_schema)))
    = [{| graphqlSchema := None;
          layout := "layout";
          schemaSettings := true;
          plugins := ["nexus-plugin-prisma"] |}].
Proof.
  exact (proj2 (typegen_writes_once Demo.typegen_no_schema "layout-data"
                  Demo.app_no_schema ["nexus-plugin-prisma"]
                  eq_refl eq_refl eq_refl eq_refl eq_refl)).
Defined.


Lemma unserialisable_start_failure_reject_witness :
  fst (invocation Demo.plugin_start_fails_bigint)
    = Throw (new_TypeError Demo.plugin_start_fails_bigint
               "Do not know how to serialize a BigInt")
  /\ stage_checks (trace (snd (invocation Demo.plugin_start_fails_bigint))) = []
  /\ sent (trace (snd (invocation Demo.plugin_start_fails_bigint))) = [].
Proof.
  apply (unserialisable_start_failure_reject Demo.plugin_start_fails_bigint
           "layout-data" Demo.app1 Demo.quota_exceeded); reflexivity.
Defined.

Lemma unserialisable_stage_failure_reject_witness :
  fst (invocation Demo.typegen_write_fails_bigint)
    = Throw (new_TypeError Demo.typegen_write_fails_bigint
               "Do not know how to serialize a BigInt")
  /\ sent (trace (snd (invocation Demo.typegen_write_fails_bigint))) = [].
Proof.
  apply (unserialisable_stage_failure_reject Demo.typegen_write_fails_bigint
           "layout-data" Demo.app1 Demo.quota_exceeded
           eq_refl eq_refl eq_refl eq_refl).
  - right. exists ["loaded:nexus-plugin-prisma"]. split; reflexivity.
  - reflexivity.
  - reflexivity.
Defined.
